(** * diskmonitor: the disk-space check scheduler of DSME

    A shallow embedding of [modules/diskmonitor.c].  The module keeps five
    file-scope variables, reads the wall clock through [time(0)] and talks
    to the rest of DSME only through calls into other modules (the logger,
    the internal message bus, the disk-usage backend and the D-Bus glue).

    The embedding threads the five variables through a small state monad,
    answers [time(0)] from a clock oracle and records every call that
    leaves the module, in program order, in a trace. *)

From Stdlib Require Import ZArith List String Bool Lia.
Import ListNotations.

Open Scope Z_scope.

(** ** C integers *)

Module CInt.

Definition INT_MIN : Z := - 2 ^ 31.
Definition INT_MAX : Z := 2 ^ 31 - 1.

(** Conversion of an integer value to [int]: reduction modulo [2^32]
    into the range [INT_MIN .. INT_MAX]. *)
Definition to_int (z : Z) : Z := (z + 2 ^ 31) mod 2 ^ 32 - 2 ^ 31.

Definition fits_int (z : Z) : Prop := INT_MIN <= z <= INT_MAX.

End CInt.

(** [time_t]: seconds since the Epoch.  Its width is the platform's; it is
    at least as wide as [int], and the only arithmetic the module does on
    it is one subtraction whose result is stored in an [int]. *)
Definition time_t : Type := Z.

(** The clock oracle.  [time(0)] cannot fail with a null argument and
    returns the seconds elapsed since the Epoch, a non-negative count; the
    [k]-th call since the module was loaded reads [clock k]. *)
Definition Clock : Type := nat -> N.

(** ** File-scope variables *)

Record Globals : Type := mkGlobals
  { init_done_received : bool
  ; device_active      : bool
  ; dbus_methods_bound : bool
  ; dbus_signals_bound : bool
  ; last_check_time    : time_t }.

(** The initialisers of the five variables. *)
Definition globals_init : Globals :=
  {| init_done_received := false
   ; device_active      := false
   ; dbus_methods_bound := false
   ; dbus_signals_bound := false
   ; last_check_time    := 0 |}.

Definition ACTIVE_CHECK_INTERVAL   : Z := 300.
Definition IDLE_CHECK_INTERVAL     : Z := 1800.
Definition MAXTIME_FROM_LAST_CHECK : Z := 900.

(** ** Messages and calls that leave the module *)

Inductive LogLevel : Type := LOG_NOTICE | LOG_DEBUG.

Inductive LogArg : Type :=
| LogStr (s : string)
| LogInt (i : Z).

(** [DSM_MSGTYPE_WAIT]: the wake-up request sent to the heartbeat. *)
Record DSM_MSGTYPE_WAIT : Type := mkWait
  { req_mintime : Z
  ; req_maxtime : Z
  ; req_pid     : Z
  ; data        : Z }.

(** An inbound D-Bus method call; [dsme_dbus_endpoint_name] gives the
    sender's name or a null pointer. *)
Record DsmeDbusRequest : Type := mkRequest
  { endpoint_name : option string }.

Inductive DbusArg : Type :=
| ArgString (s : string)
| ArgInt (i : Z).

(** An outbound D-Bus message under construction. *)
Record DsmeDbusMessage : Type := mkMessage
  { msg_path      : string
  ; msg_interface : string
  ; msg_name      : string
  ; msg_args      : list DbusArg }.

(** The reply handed back through [*reply]. *)
Inductive DsmeDbusReply : Type :=
| ReplyTo (request : DsmeDbusRequest).

(** Modelled from the spec: [dsme_dbus_signal_new],
    [dsme_dbus_message_append_string] and [dsme_dbus_message_append_int]
    live in the D-Bus glue, outside this file.  A new signal has no
    arguments and each append adds one argument after those already there. *)
Definition dsme_dbus_signal_new (path interface name : string)
  : DsmeDbusMessage :=
  {| msg_path := path; msg_interface := interface; msg_name := name
   ; msg_args := [] |}.

Definition dsme_dbus_message_append_string (m : DsmeDbusMessage) (s : string)
  : DsmeDbusMessage :=
  {| msg_path := msg_path m; msg_interface := msg_interface m
   ; msg_name := msg_name m; msg_args := msg_args m ++ [ArgString s] |}.

Definition dsme_dbus_message_append_int (m : DsmeDbusMessage) (i : Z)
  : DsmeDbusMessage :=
  {| msg_path := msg_path m; msg_interface := msg_interface m
   ; msg_name := msg_name m; msg_args := msg_args m ++ [ArgInt i] |}.

(** Modelled from the spec: [dsme_dbus_reply_new] lives in the D-Bus glue;
    it builds the empty acknowledgment of a request. *)
Definition dsme_dbus_reply_new (request : DsmeDbusRequest) : DsmeDbusReply :=
  ReplyTo request.

(** Every call out of the module that another component can observe. *)
Inductive Call : Type :=
| dsme_log (level : LogLevel) (fmt : string) (args : list LogArg)
| broadcast_internally (msg : DSM_MSGTYPE_WAIT)
| check_disk_space_usage
| dbus_reply_new (request : DsmeDbusRequest)
| dsme_dbus_signal_emit (sig : DsmeDbusMessage)
| dsme_dbus_bind_methods (service interface : string)
| dsme_dbus_bind_signals
| dsme_dbus_unbind_methods (service interface : string)
| dsme_dbus_unbind_signals.

(** ** The monad: variables, clock oracle and call trace *)

(** [ticks] counts the calls of [time(0)] made so far. *)
Record Env : Type := mkEnv
  { mem   : Globals
  ; ticks : nat }.

Definition M (A : Type) : Type :=
  Clock -> Env -> A * Env * list Call.

Definition ret {A} (a : A) : M A := fun _ e => (a, e, []).

Definition bind {A B} (m : M A) (k : A -> M B) : M B :=
  fun clock e =>
    let '(a, e1, t1) := m clock e in
    let '(b, e2, t2) := k a clock e1 in
    (b, e2, t1 ++ t2).

Declare Scope diskmon_scope.
Delimit Scope diskmon_scope with diskmon.
Notation "x <- m ;; k" := (bind m (fun x => k))
  (at level 61, m at next level, right associativity) : diskmon_scope.
Notation "m ;; k" := (bind m (fun _ => k))
  (at level 61, right associativity) : diskmon_scope.
Open Scope diskmon_scope.

Definition time0 : M time_t :=
  fun clock e =>
    (Z.of_N (clock (ticks e)), {| mem := mem e; ticks := S (ticks e) |}, []).

Definition call (c : Call) : M unit := fun _ e => (tt, e, [c]).

Definition load {A} (field : Globals -> A) : M A :=
  fun _ e => (field (mem e), e, []).

Definition store (upd : Globals -> Globals) : M unit :=
  fun _ e => (tt, {| mem := upd (mem e); ticks := ticks e |}, []).

Definition set_init_done_received (b : bool) (g : Globals) : Globals :=
  {| init_done_received := b
   ; device_active      := device_active g
   ; dbus_methods_bound := dbus_methods_bound g
   ; dbus_signals_bound := dbus_signals_bound g
   ; last_check_time    := last_check_time g |}.

Definition set_device_active (b : bool) (g : Globals) : Globals :=
  {| init_done_received := init_done_received g
   ; device_active      := b
   ; dbus_methods_bound := dbus_methods_bound g
   ; dbus_signals_bound := dbus_signals_bound g
   ; last_check_time    := last_check_time g |}.

Definition set_dbus_methods_bound (b : bool) (g : Globals) : Globals :=
  {| init_done_received := init_done_received g
   ; device_active      := device_active g
   ; dbus_methods_bound := b
   ; dbus_signals_bound := dbus_signals_bound g
   ; last_check_time    := last_check_time g |}.

Definition set_dbus_signals_bound (b : bool) (g : Globals) : Globals :=
  {| init_done_received := init_done_received g
   ; device_active      := device_active g
   ; dbus_methods_bound := dbus_methods_bound g
   ; dbus_signals_bound := b
   ; last_check_time    := last_check_time g |}.

Definition set_last_check_time (t : time_t) (g : Globals) : Globals :=
  {| init_done_received := init_done_received g
   ; device_active      := device_active g
   ; dbus_methods_bound := dbus_methods_bound g
   ; dbus_signals_bound := dbus_signals_bound g
   ; last_check_time    := t |}.

(** ** Helpers *)

Definition disk_check_interval : M Z :=
  active <- load device_active ;;
  if active then ret ACTIVE_CHECK_INTERVAL else ret IDLE_CHECK_INTERVAL.

Definition schedule_next_wakeup : M unit :=
  mintime <- disk_check_interval ;;
  call (broadcast_internally
          {| req_mintime := mintime
           ; req_maxtime := mintime + 120
           ; req_pid     := 0
           ; data        := 0 |}).

Definition check_disk_space : M unit :=
  done <- load init_done_received ;;
  if done then
    call check_disk_space_usage ;;
    t <- time0 ;;
    store (set_last_check_time t)
  else ret tt.

(** ** D-Bus query API *)

Definition diskmonitor_service : string := "com.nokia.diskmonitor".
Definition diskmonitor_req_interface : string := "com.nokia.diskmonitor.request".
Definition diskmonitor_sig_interface : string := "com.nokia.diskmonitor.signal".
Definition diskmonitor_req_path : string := "/com/nokia/diskmonitor/request".
Definition diskmonitor_sig_path : string := "/com/nokia/diskmonitor/signal".
Definition diskmonitor_req_check : string := "req_check".
Definition diskmonitor_disk_space_change_ind : string := "disk_space_change_ind".

Definition req_check (request : DsmeDbusRequest) : M DsmeDbusReply :=
  let sender := endpoint_name request in
  call (dsme_log LOG_NOTICE
          "diskmonitor: check request received over D-Bus from %s"
          [LogStr match sender with Some s => s | None => "(unknown)" end]) ;;
  check_disk_space ;;
  call (dbus_reply_new request) ;;
  ret (dsme_dbus_reply_new request).

Definition init_done_ind : M unit :=
  call (dsme_log LOG_DEBUG "diskmonitor: base_boot_done received" []) ;;
  store (set_init_done_received true).

Definition mce_inactivity_sig (inactive : Z) : M unit :=
  let new_device_active_state := (inactive =? 0) in
  now <- time0 ;;
  last <- load last_check_time ;;
  let seconds_from_last_check := CInt.to_int (now - last) in
  call (dsme_log LOG_DEBUG "diskmonitor: mce_inactivity_sig received" []) ;;
  active <- load device_active ;;
  if Bool.eqb new_device_active_state active then
    ret tt
  else
    store (set_device_active new_device_active_state) ;;
    active' <- load device_active ;;
    (if active' && (MAXTIME_FROM_LAST_CHECK <=? seconds_from_last_check) then
       call (dsme_log LOG_DEBUG
               "diskmonitor: more than %i seconds from the last check, checking"
               [LogInt seconds_from_last_check]) ;;
       check_disk_space
     else ret tt) ;;
    schedule_next_wakeup.

(** ** Internal DSME event handling *)

Definition handle_WAKEUP : M unit :=
  check_disk_space ;;
  schedule_next_wakeup.

(** The two binding calls receive the addresses of the [bound] flags and
    nothing else of the module; [methods_bound] and [signals_bound] are the
    values the glue leaves in them. *)
Definition handle_DBUS_CONNECT (methods_bound signals_bound : bool) : M unit :=
  call (dsme_log LOG_DEBUG "diskmonitor: DBUS_CONNECT" []) ;;
  call (dsme_dbus_bind_methods diskmonitor_service diskmonitor_req_interface) ;;
  store (set_dbus_methods_bound methods_bound) ;;
  call dsme_dbus_bind_signals ;;
  store (set_dbus_signals_bound signals_bound).

Definition handle_DBUS_DISCONNECT (methods_bound signals_bound : bool) : M unit :=
  call (dsme_log LOG_DEBUG "diskmonitor: DBUS_DISCONNECT" []) ;;
  call (dsme_dbus_unbind_methods diskmonitor_service diskmonitor_req_interface) ;;
  store (set_dbus_methods_bound methods_bound) ;;
  call dsme_dbus_unbind_signals ;;
  store (set_dbus_signals_bound signals_bound).

Definition handle_DISK_SPACE (mount_path : string) (blocks_percent_used : Z)
  : M unit :=
  let sig := dsme_dbus_signal_new diskmonitor_sig_path
                                  diskmonitor_sig_interface
                                  diskmonitor_disk_space_change_ind in
  let sig := dsme_dbus_message_append_string sig mount_path in
  let sig := dsme_dbus_message_append_int sig blocks_percent_used in
  call (dsme_dbus_signal_emit sig).

(** ** Plugin init *)

Definition module_init : M unit :=
  call (dsme_log LOG_DEBUG "diskmonitor.so loaded" []) ;;
  schedule_next_wakeup.

(** ** Event dispatch

    The handlers run to completion, one event at a time.  An [Event] is one
    delivery through the tables [message_handlers], [methods] and
    [signals]. *)

Inductive Event : Type :=
| WAKEUP
| DBUS_CONNECT (methods_bound signals_bound : bool)
| DBUS_DISCONNECT (methods_bound signals_bound : bool)
| DISK_SPACE (mount_path : string) (blocks_percent_used : Z)
| REQ_CHECK (request : DsmeDbusRequest)
| BASE_BOOT_DONE
| SYSTEM_INACTIVITY_IND (inactive : Z).

Definition handle (ev : Event) : M unit :=
  match ev with
  | WAKEUP => handle_WAKEUP
  | DBUS_CONNECT m s => handle_DBUS_CONNECT m s
  | DBUS_DISCONNECT m s => handle_DBUS_DISCONNECT m s
  | DISK_SPACE mount_path used => handle_DISK_SPACE mount_path used
  | REQ_CHECK request => _ <- req_check request ;; ret tt
  | BASE_BOOT_DONE => init_done_ind
  | SYSTEM_INACTIVITY_IND inactive => mce_inactivity_sig inactive
  end.

Fixpoint run (evs : list Event) : M unit :=
  match evs with
  | [] => ret tt
  | ev :: rest => handle ev ;; run rest
  end.

(** The module from load time on: [module_init], then the events. *)
Definition lifetime (evs : list Event) : M unit :=
  module_init ;; run evs.

Definition env_init : Env := {| mem := globals_init; ticks := 0 |}.

(** Accessors for the three components of a monadic result. *)
Definition result_of {A} (r : A * Env * list Call) : A := fst (fst r).
Definition env_of {A} (r : A * Env * list Call) : Env := snd (fst r).
Definition trace_of {A} (r : A * Env * list Call) : list Call := snd r.

(** ** Observers on traces *)

Definition is_probe (c : Call) : bool :=
  match c with check_disk_space_usage => true | _ => false end.

(** Number of invocations of the disk-usage scan in a trace. *)
Definition probes (t : list Call) : nat := List.length (filter is_probe t).

(** The wake-up requests of a trace, in order. *)
Fixpoint waits (t : list Call) : list DSM_MSGTYPE_WAIT :=
  match t with
  | [] => []
  | broadcast_internally msg :: t' => msg :: waits t'
  | _ :: t' => waits t'
  end.

(** The D-Bus signals emitted in a trace, in order. *)
Fixpoint signals (t : list Call) : list DsmeDbusMessage :=
  match t with
  | [] => []
  | dsme_dbus_signal_emit sig :: t' => sig :: signals t'
  | _ :: t' => signals t'
  end.

(** The request [schedule_next_wakeup] sends for a given activity state. *)
Definition wait_for (active : bool) : DSM_MSGTYPE_WAIT :=
  let mintime := if active then ACTIVE_CHECK_INTERVAL else IDLE_CHECK_INTERVAL in
  {| req_mintime := mintime; req_maxtime := mintime + 120
   ; req_pid := 0; data := 0 |}.

(** One dispatched event with the variables before and after it and the
    calls it made. *)
Record Step : Type := mkStep
  { pre   : Env
  ; event : Event
  ; calls : list Call
  ; post  : Env }.

Fixpoint steps (clock : Clock) (e : Env) (evs : list Event) : list Step :=
  match evs with
  | [] => []
  | ev :: rest =>
      let r := handle ev clock e in
      {| pre := e; event := ev; calls := trace_of r; post := env_of r |}
        :: steps clock (env_of r) rest
  end.

Definition is_boot_done (ev : Event) : bool :=
  match ev with BASE_BOOT_DONE => true | _ => false end.

(** The probe results delivered in an event sequence, in order. *)
Fixpoint disk_space_events (evs : list Event) : list (string * Z) :=
  match evs with
  | [] => []
  | DISK_SPACE mount_path used :: rest =>
      (mount_path, used) :: disk_space_events rest
  | _ :: rest => disk_space_events rest
  end.

(** The signal that carries one probe result unchanged. *)
Definition disk_space_change_ind (result : string * Z) : DsmeDbusMessage :=
  {| msg_path := diskmonitor_sig_path
   ; msg_interface := diskmonitor_sig_interface
   ; msg_name := diskmonitor_disk_space_change_ind
   ; msg_args := [ArgString (fst result); ArgInt (snd result)] |}.

Definition non_decreasing (clock : Clock) : Prop :=
  forall i j : nat, (i <= j)%nat -> (clock i <= clock j)%N.

(** The staleness test in the words of the specification: a check that
    never happened ([lastCheckTime] still zero) is infinitely stale,
    otherwise the age of the last check is compared with the threshold. *)
Definition spec_stale (now lastCheckTime : time_t) : bool :=
  (lastCheckTime =? 0) || (900 <=? now - lastCheckTime).

(** The number of checks the specification expects from an activity signal
    that changes the state: one when the new state is active and the last
    check is stale in the sense of [spec_stale], none otherwise. *)
Definition spec_probe_attempts (newActive : bool) (now lastCheckTime : time_t)
  : nat :=
  if newActive && spec_stale now lastCheckTime then 1%nat else 0%nat.

(** ** Abbreviations for the statements *)

Definition log_inactivity_received : Call :=
  dsme_log LOG_DEBUG "diskmonitor: mce_inactivity_sig received" [].

Definition log_checking (seconds_from_last_check : Z) : Call :=
  dsme_log LOG_DEBUG
    "diskmonitor: more than %i seconds from the last check, checking"
    [LogInt seconds_from_last_check].

Definition log_check_request (request : DsmeDbusRequest) : Call :=
  dsme_log LOG_NOTICE
    "diskmonitor: check request received over D-Bus from %s"
    [LogStr match endpoint_name request with
            | Some s => s
            | None => "(unknown)"
            end].

Definition log_boot_done : Call :=
  dsme_log LOG_DEBUG "diskmonitor: base_boot_done received" [].

Definition log_loaded : Call :=
  dsme_log LOG_DEBUG "diskmonitor.so loaded" [].

(** The reading [now] that [mce_inactivity_sig] takes when it starts in [e]. *)
Definition now_at (clock : Clock) (e : Env) : time_t :=
  Z.of_N (clock (ticks e)).

(** The value of [seconds_from_last_check] when the activity signal
    arrives in [e]. *)
Definition seconds_from_last_check (clock : Clock) (e : Env) : Z :=
  CInt.to_int (Z.of_N (clock (ticks e)) - last_check_time (mem e)).

(** The variables and clock position in which [mce_inactivity_sig] calls
    [check_disk_space] and [schedule_next_wakeup] after a change of state. *)
Definition after_change (inactive : Z) (e : Env) : Env :=
  {| mem := set_device_active (inactive =? 0) (mem e); ticks := S (ticks e) |}.

(** Whether the handler of [ev], started in [e], reaches a call of
    [check_disk_space]. *)
Definition attempts_probe (clock : Clock) (e : Env) (ev : Event) : bool :=
  match ev with
  | WAKEUP | REQ_CHECK _ => true
  | SYSTEM_INACTIVITY_IND inactive =>
      negb (Bool.eqb (inactive =? 0) (device_active (mem e)))
      && (inactive =? 0)
      && (MAXTIME_FROM_LAST_CHECK <=? seconds_from_last_check clock e)
  | _ => false
  end.

(** The index of the clock reading that [check_disk_space] takes when the
    handler of [ev] reaches it. *)
Definition probe_tick (e : Env) (ev : Event) : nat :=
  match ev with
  | SYSTEM_INACTIVITY_IND _ => S (ticks e)
  | _ => ticks e
  end.

(** A request as [schedule_next_wakeup] builds it for an activity state,
    and the two requests that exist. *)
Definition well_formed_wait (active : bool) (w : DSM_MSGTYPE_WAIT) : Prop :=
  req_maxtime w = req_mintime w + 120
  /\ req_mintime w = (if active then 300 else 1800).

Definition known_wait (w : DSM_MSGTYPE_WAIT) : Prop :=
  w = {| req_mintime := 300; req_maxtime := 420; req_pid := 0; data := 0 |}
  \/ w = {| req_mintime := 1800; req_maxtime := 1920; req_pid := 0; data := 0 |}.

(** The delivery of one probe result. *)
Definition deliver (result : string * Z) : Event :=
  DISK_SPACE (fst result) (snd result).

(** The stored time is not ahead of the next clock reading. *)
Definition not_ahead (clock : Clock) (e : Env) : Prop :=
  last_check_time (mem e) <= now_at clock e.

(** ** Sample clocks and states *)

(** A clock in March 2011 that advances a minute per reading, a clock that
    restarted at the Epoch (a device whose real-time clock lost power) and
    a clock that has passed 2038-01-19. *)
Definition clock_2011 : Clock := fun k => (1300000000 + 60 * N.of_nat k)%N.
Definition clock_epoch : Clock := fun k => (100 + N.of_nat k)%N.
Definition clock_2038 : Clock := fun k => (2147484548 + N.of_nat k)%N.

(** The initial variables with boot completed. *)
Definition env_booted : Env :=
  {| mem := set_init_done_received true globals_init; ticks := 0 |}.

(** ** Views of event sequences and of the scheduler's variables *)

(** The activity state the last activity signal of a sequence reports, or
    [active] when the sequence has none. *)
Fixpoint last_activity (active : bool) (evs : list Event) : bool :=
  match evs with
  | [] => active
  | SYSTEM_INACTIVITY_IND inactive :: rest => last_activity (inactive =? 0) rest
  | _ :: rest => last_activity active rest
  end.

Definition is_wakeup (ev : Event) : bool :=
  match ev with WAKEUP => true | _ => false end.

(** The events whose handlers contain a call of [check_disk_space]. *)
Definition is_trigger (ev : Event) : bool :=
  match ev with
  | WAKEUP | REQ_CHECK _ | SYSTEM_INACTIVITY_IND _ => true
  | _ => false
  end.

(** The events whose handlers call [check_disk_space] on every path. *)
Definition always_checks (ev : Event) : bool :=
  match ev with
  | WAKEUP | REQ_CHECK _ => true
  | _ => false
  end.

(** The events whose handlers contain a call of [schedule_next_wakeup]. *)
Definition reschedules (ev : Event) : bool :=
  match ev with
  | WAKEUP | SYSTEM_INACTIVITY_IND _ => true
  | _ => false
  end.

(** The probe results and the bus connection messages. *)
Definition is_transparent (ev : Event) : bool :=
  match ev with
  | DISK_SPACE _ _ | DBUS_CONNECT _ _ | DBUS_DISCONNECT _ _ => true
  | _ => false
  end.

(** The three variables the scheduling decisions read, with the clock
    position. *)
Definition sched (e : Env) : bool * bool * time_t * nat :=
  (init_done_received (mem e), device_active (mem e),
   last_check_time (mem e), ticks e).

(** ** Proof automation *)

Ltac step_monad :=
  cbn [mem ticks fst snd app init_done_received device_active
       dbus_methods_bound dbus_signals_bound last_check_time
       set_init_done_received set_device_active set_dbus_methods_bound
       set_dbus_signals_bound set_last_check_time andb orb negb Bool.eqb].

Ltac by_boot e :=
  let Hboot := fresh "Hboot" in
  destruct (init_done_received (mem e)) eqn:Hboot;
  unfold env_of, trace_of; step_monad; rewrite ?Hboot; reflexivity.

(** ** C integers: conversion inside the range *)

Lemma to_int_fits (z : Z) : CInt.fits_int z -> CInt.to_int z = z.
Proof.
  unfold CInt.fits_int, CInt.INT_MIN, CInt.INT_MAX, CInt.to_int. intros Hz.
  rewrite Z.mod_small; lia.
Qed.

(** ** Handler equations *)

Lemma check_disk_space_eq (clock : Clock) (e : Env) :
  check_disk_space clock e =
    if init_done_received (mem e) then
      (tt,
       {| mem := set_last_check_time (Z.of_N (clock (ticks e))) (mem e)
        ; ticks := S (ticks e) |},
       [check_disk_space_usage])
    else (tt, e, []).
Proof.
  unfold check_disk_space, bind, load, call, time0, store, ret.
  destruct (init_done_received (mem e)); step_monad; reflexivity.
Qed.

Lemma schedule_next_wakeup_eq (clock : Clock) (e : Env) :
  schedule_next_wakeup clock e =
    (tt, e, [broadcast_internally (wait_for (device_active (mem e)))]).
Proof.
  unfold schedule_next_wakeup, disk_check_interval, bind, load, call, ret.
  unfold wait_for.
  destruct (device_active (mem e)); step_monad; reflexivity.
Qed.

Lemma handle_WAKEUP_eq (clock : Clock) (e : Env) :
  handle_WAKEUP clock e =
    let r := check_disk_space clock e in
    (tt, env_of r,
     trace_of r ++
       [broadcast_internally (wait_for (device_active (mem e)))]).
Proof.
  unfold handle_WAKEUP, bind. rewrite check_disk_space_eq.
  destruct (init_done_received (mem e));
    rewrite schedule_next_wakeup_eq; reflexivity.
Qed.

Lemma mce_inactivity_sig_eq (clock : Clock) (e : Env) (inactive : Z) :
  mce_inactivity_sig inactive clock e =
    let new_state := inactive =? 0 in
    let secs := seconds_from_last_check clock e in
    if Bool.eqb new_state (device_active (mem e)) then
      (tt, {| mem := mem e; ticks := S (ticks e) |}, [log_inactivity_received])
    else
      let e' := {| mem := set_device_active new_state (mem e)
                 ; ticks := S (ticks e) |} in
      if new_state && (MAXTIME_FROM_LAST_CHECK <=? secs) then
        let r := check_disk_space clock e' in
        (tt, env_of r,
         [log_inactivity_received; log_checking secs] ++ trace_of r ++
           [broadcast_internally (wait_for new_state)])
      else
        (tt, e', [log_inactivity_received;
                  broadcast_internally (wait_for new_state)]).
Proof.
  unfold seconds_from_last_check, log_inactivity_received, log_checking.
  cbv zeta.
  unfold mce_inactivity_sig.
  unfold bind at 1. unfold time0 at 1.
  unfold bind at 1. unfold load at 1. step_monad.
  unfold bind at 1. unfold call at 1.
  unfold bind at 1. unfold load at 1. step_monad.
  destruct (Bool.eqb (inactive =? 0) (device_active (mem e))); [reflexivity|].
  unfold bind at 1. unfold store at 1. step_monad.
  unfold bind at 1. unfold load at 1. step_monad.
  destruct ((inactive =? 0) &&
            (MAXTIME_FROM_LAST_CHECK <=?
               CInt.to_int (Z.of_N (clock (ticks e)) - last_check_time (mem e)))).
  - unfold bind at 1. unfold bind at 1. unfold call at 1.
    rewrite check_disk_space_eq. step_monad.
    destruct (init_done_received (mem e));
      rewrite schedule_next_wakeup_eq; reflexivity.
  - unfold bind at 1. unfold ret at 1.
    rewrite schedule_next_wakeup_eq. reflexivity.
Qed.

Lemma req_check_eq (clock : Clock) (e : Env) (request : DsmeDbusRequest) :
  req_check request clock e =
    let r := check_disk_space clock e in
    (dsme_dbus_reply_new request, env_of r,
     [log_check_request request] ++ trace_of r ++ [dbus_reply_new request]).
Proof.
  unfold req_check, log_check_request. cbv zeta.
  unfold bind at 1. unfold call at 1.
  unfold bind at 1. rewrite check_disk_space_eq.
  destruct (init_done_received (mem e)); reflexivity.
Qed.

Lemma init_done_ind_eq (clock : Clock) (e : Env) :
  init_done_ind clock e =
    (tt, {| mem := set_init_done_received true (mem e); ticks := ticks e |},
     [log_boot_done]).
Proof. reflexivity. Qed.

Lemma handle_DISK_SPACE_eq (clock : Clock) (e : Env) (mount_path : string)
  (blocks_percent_used : Z) :
  handle_DISK_SPACE mount_path blocks_percent_used clock e =
    (tt, e,
     [dsme_dbus_signal_emit
        (disk_space_change_ind (mount_path, blocks_percent_used))]).
Proof. reflexivity. Qed.

Lemma handle_DBUS_CONNECT_eq (clock : Clock) (e : Env) (mb sb : bool) :
  handle_DBUS_CONNECT mb sb clock e =
    (tt,
     {| mem := set_dbus_signals_bound sb (set_dbus_methods_bound mb (mem e))
      ; ticks := ticks e |},
     [dsme_log LOG_DEBUG "diskmonitor: DBUS_CONNECT" [];
      dsme_dbus_bind_methods diskmonitor_service diskmonitor_req_interface;
      dsme_dbus_bind_signals]).
Proof. reflexivity. Qed.

Lemma handle_DBUS_DISCONNECT_eq (clock : Clock) (e : Env) (mb sb : bool) :
  handle_DBUS_DISCONNECT mb sb clock e =
    (tt,
     {| mem := set_dbus_signals_bound sb (set_dbus_methods_bound mb (mem e))
      ; ticks := ticks e |},
     [dsme_log LOG_DEBUG "diskmonitor: DBUS_DISCONNECT" [];
      dsme_dbus_unbind_methods diskmonitor_service diskmonitor_req_interface;
      dsme_dbus_unbind_signals]).
Proof. reflexivity. Qed.

Lemma module_init_eq (clock : Clock) (e : Env) :
  module_init clock e =
    (tt, e, [log_loaded;
             broadcast_internally (wait_for (device_active (mem e)))]).
Proof.
  unfold module_init. unfold bind at 1. unfold call at 1.
  rewrite schedule_next_wakeup_eq. reflexivity.
Qed.

Lemma handle_REQ_CHECK_eq (clock : Clock) (e : Env) (request : DsmeDbusRequest) :
  handle (REQ_CHECK request) clock e =
    (tt, env_of (req_check request clock e),
     trace_of (req_check request clock e)).
Proof.
  cbn [handle]. unfold bind, ret, env_of, trace_of.
  destruct (req_check request clock e) as [[r e1] t1]. cbn [fst snd].
  rewrite app_nil_r. reflexivity.
Qed.

(** ** Traces of event sequences *)

Lemma probes_app (t1 t2 : list Call) :
  probes (t1 ++ t2) = (probes t1 + probes t2)%nat.
Proof. unfold probes. rewrite filter_app, length_app. reflexivity. Qed.

Lemma waits_app (t1 t2 : list Call) : waits (t1 ++ t2) = waits t1 ++ waits t2.
Proof.
  induction t1 as [|c t1 IH]; [reflexivity|].
  destruct c; cbn [waits app]; rewrite IH; reflexivity.
Qed.

Lemma signals_app (t1 t2 : list Call) :
  signals (t1 ++ t2) = signals t1 ++ signals t2.
Proof.
  induction t1 as [|c t1 IH]; [reflexivity|].
  destruct c; cbn [signals app]; rewrite IH; reflexivity.
Qed.

Lemma run_cons (clock : Clock) (e : Env) (ev : Event) (evs : list Event) :
  run (ev :: evs) clock e =
    (tt, env_of (run evs clock (env_of (handle ev clock e))),
     trace_of (handle ev clock e) ++
       trace_of (run evs clock (env_of (handle ev clock e)))).
Proof.
  cbn [run]. unfold bind, env_of, trace_of.
  destruct (handle ev clock e) as [[[] e1] t1]. cbn [fst snd].
  destruct (run evs clock e1) as [[[] e2] t2]. reflexivity.
Qed.

Lemma run_app (clock : Clock) (evs1 evs2 : list Event) (e : Env) :
  run (evs1 ++ evs2) clock e =
    (tt, env_of (run evs2 clock (env_of (run evs1 clock e))),
     trace_of (run evs1 clock e) ++
       trace_of (run evs2 clock (env_of (run evs1 clock e)))).
Proof.
  revert e. induction evs1 as [|ev evs1 IH]; intros e.
  - cbn [app run]. unfold ret, env_of, trace_of. cbn [fst snd app].
    destruct (run evs2 clock e) as [[[] e2] t2]. reflexivity.
  - cbn [app]. rewrite !run_cons, IH.
    unfold env_of, trace_of. cbn [fst snd]. rewrite app_assoc. reflexivity.
Qed.

Lemma env_of_run_cons (clock : Clock) (e : Env) (ev : Event)
  (evs : list Event) :
  env_of (run (ev :: evs) clock e)
    = env_of (run evs clock (env_of (handle ev clock e))).
Proof. rewrite run_cons. reflexivity. Qed.

Lemma env_of_run_app (clock : Clock) (evs1 evs2 : list Event) (e : Env) :
  env_of (run (evs1 ++ evs2) clock e)
    = env_of (run evs2 clock (env_of (run evs1 clock e))).
Proof. rewrite run_app. reflexivity. Qed.

Lemma trace_of_run_steps (clock : Clock) (evs : list Event) (e : Env) :
  trace_of (run evs clock e) = List.concat (map calls (steps clock e evs)).
Proof.
  revert e. induction evs as [|ev evs IH]; intros e; [reflexivity|].
  rewrite run_cons. cbn [steps map List.concat calls trace_of snd].
  f_equal. apply IH.
Qed.

Lemma lifetime_eq (clock : Clock) (evs : list Event) (e : Env) :
  lifetime evs clock e =
    (tt, env_of (run evs clock e),
     [log_loaded; broadcast_internally (wait_for (device_active (mem e)))]
       ++ trace_of (run evs clock e)).
Proof.
  unfold lifetime. unfold bind at 1. rewrite module_init_eq.
  unfold env_of, trace_of.
  destruct (run evs clock e) as [[[] e2] t2]. reflexivity.
Qed.

Lemma env_of_lifetime (clock : Clock) (evs : list Event) (e : Env) :
  env_of (lifetime evs clock e) = env_of (run evs clock e).
Proof. rewrite lifetime_eq. reflexivity. Qed.

(** ** What each handler does to the variables and the trace *)

Ltac handler_cases clock e ev :=
  destruct ev as [ | mb sb | mb sb | mount_path used | request | | inactive ];
  rewrite ?handle_REQ_CHECK_eq;
  cbn [handle attempts_probe probe_tick is_boot_done];
  [ rewrite handle_WAKEUP_eq
  | rewrite handle_DBUS_CONNECT_eq
  | rewrite handle_DBUS_DISCONNECT_eq
  | rewrite handle_DISK_SPACE_eq
  | rewrite req_check_eq
  | rewrite init_done_ind_eq
  | rewrite mce_inactivity_sig_eq ];
  cbv zeta; rewrite ?check_disk_space_eq.

Lemma probes_handle (clock : Clock) (e : Env) (ev : Event) :
  probes (trace_of (handle ev clock e)) =
    if init_done_received (mem e) && attempts_probe clock e ev
    then 1%nat else 0%nat.
Proof.
  handler_cases clock e ev.
  - by_boot e.
  - by_boot e.
  - by_boot e.
  - by_boot e.
  - by_boot e.
  - by_boot e.
  - destruct (Bool.eqb (inactive =? 0) (device_active (mem e)));
      cbn [negb andb].
    + rewrite andb_false_r. reflexivity.
    + destruct ((inactive =? 0) &&
                (MAXTIME_FROM_LAST_CHECK <=? seconds_from_last_check clock e)).
      * step_monad.
        by_boot e.
      * rewrite andb_false_r. reflexivity.
Qed.

Lemma init_done_handle (clock : Clock) (e : Env) (ev : Event) :
  init_done_received (mem (env_of (handle ev clock e))) =
    init_done_received (mem e) || is_boot_done ev.
Proof.
  handler_cases clock e ev.
  - by_boot e.
  - rewrite orb_false_r. reflexivity.
  - rewrite orb_false_r. reflexivity.
  - rewrite orb_false_r. reflexivity.
  - by_boot e.
  - rewrite orb_true_r. reflexivity.
  - rewrite orb_false_r.
    destruct (Bool.eqb (inactive =? 0) (device_active (mem e)));
      [reflexivity|].
    destruct ((inactive =? 0) &&
              (MAXTIME_FROM_LAST_CHECK <=? seconds_from_last_check clock e));
      [|reflexivity].
    step_monad.
    by_boot e.
Qed.

Lemma last_check_time_handle (clock : Clock) (e : Env) (ev : Event) :
  last_check_time (mem (env_of (handle ev clock e))) =
    if init_done_received (mem e) && attempts_probe clock e ev
    then Z.of_N (clock (probe_tick e ev))
    else last_check_time (mem e).
Proof.
  handler_cases clock e ev; try by_boot e.
  destruct (Bool.eqb (inactive =? 0) (device_active (mem e)));
    cbn [negb andb].
  - rewrite andb_false_r. reflexivity.
  - destruct ((inactive =? 0) &&
              (MAXTIME_FROM_LAST_CHECK <=? seconds_from_last_check clock e)).
    + by_boot e.
    + rewrite andb_false_r. reflexivity.
Qed.

Lemma ticks_handle (clock : Clock) (e : Env) (ev : Event) :
  ticks (env_of (handle ev clock e)) =
    (probe_tick e ev +
       if init_done_received (mem e) && attempts_probe clock e ev
       then 1 else 0)%nat.
Proof.
  handler_cases clock e ev;
    try (destruct (init_done_received (mem e)) eqn:Hboot;
         unfold env_of, trace_of; step_monad; rewrite ?Hboot; lia).
  destruct (Bool.eqb (inactive =? 0) (device_active (mem e)));
    cbn [negb andb].
  - rewrite andb_false_r. unfold env_of. step_monad. lia.
  - destruct ((inactive =? 0) &&
              (MAXTIME_FROM_LAST_CHECK <=? seconds_from_last_check clock e)).
    + destruct (init_done_received (mem e)) eqn:Hboot;
        unfold env_of, trace_of; step_monad; rewrite ?Hboot;
        step_monad; lia.
    + rewrite andb_false_r. unfold env_of. step_monad. lia.
Qed.

Lemma device_active_handle (clock : Clock) (e : Env) (ev : Event) :
  device_active (mem (env_of (handle ev clock e))) =
    match ev with
    | SYSTEM_INACTIVITY_IND inactive => inactive =? 0
    | _ => device_active (mem e)
    end.
Proof.
  handler_cases clock e ev; try by_boot e.
  destruct (Bool.eqb (inactive =? 0) (device_active (mem e))) eqn:Hsame.
  - apply eqb_prop in Hsame. rewrite Hsame. reflexivity.
  - destruct ((inactive =? 0) &&
              (MAXTIME_FROM_LAST_CHECK <=? seconds_from_last_check clock e)).
    + by_boot e.
    + reflexivity.
Qed.

Lemma waits_handle (clock : Clock) (e : Env) (ev : Event) :
  waits (trace_of (handle ev clock e)) =
    match ev with
    | WAKEUP => [wait_for (device_active (mem e))]
    | SYSTEM_INACTIVITY_IND inactive =>
        if Bool.eqb (inactive =? 0) (device_active (mem e)) then []
        else [wait_for (inactive =? 0)]
    | _ => []
    end.
Proof.
  handler_cases clock e ev; try by_boot e.
  destruct (Bool.eqb (inactive =? 0) (device_active (mem e)));
    [reflexivity|].
  destruct ((inactive =? 0) &&
            (MAXTIME_FROM_LAST_CHECK <=? seconds_from_last_check clock e)).
  - by_boot e.
  - reflexivity.
Qed.

Lemma signals_handle (clock : Clock) (e : Env) (ev : Event) :
  signals (trace_of (handle ev clock e)) =
    match ev with
    | DISK_SPACE mount_path used => [disk_space_change_ind (mount_path, used)]
    | _ => []
    end.
Proof.
  handler_cases clock e ev; try by_boot e.
  destruct (Bool.eqb (inactive =? 0) (device_active (mem e)));
    [reflexivity|].
  destruct ((inactive =? 0) &&
            (MAXTIME_FROM_LAST_CHECK <=? seconds_from_last_check clock e)).
  - by_boot e.
  - reflexivity.
Qed.

(** ** Invariants along an event sequence *)

Section StepInvariant.

Variable clock : Clock.
Variable Inv : Env -> Prop.
Variable P : Step -> Prop.

Hypothesis handle_preserves :
  forall (e : Env) (ev : Event),
    Inv e ->
    Inv (env_of (handle ev clock e))
    /\ P {| pre := e; event := ev; calls := trace_of (handle ev clock e)
          ; post := env_of (handle ev clock e) |}.

Lemma steps_invariant (evs : list Event) :
  forall e : Env,
    Inv e -> Forall P (steps clock e evs) /\ Inv (env_of (run evs clock e)).
Proof.
  induction evs as [|ev evs IH]; intros e He.
  - split; [constructor | exact He].
  - destruct (handle_preserves e ev He) as [He' Hstep].
    destruct (IH _ He') as [Hrest Hend].
    rewrite run_cons. unfold env_of at 1. cbn [fst snd steps].
    split; [constructor; assumption | exact Hend].
Qed.

End StepInvariant.

Lemma init_done_run (clock : Clock) (evs : list Event) (e : Env) :
  init_done_received (mem (env_of (run evs clock e))) =
    init_done_received (mem e) || existsb is_boot_done evs.
Proof.
  revert e. induction evs as [|ev evs IH]; intros e.
  - cbn. rewrite orb_false_r. reflexivity.
  - rewrite run_cons. unfold env_of at 1. cbn [fst snd].
    rewrite IH, init_done_handle. cbn [existsb].
    rewrite orb_assoc. reflexivity.
Qed.

Lemma probes_run_before_boot (clock : Clock) (evs : list Event) (e : Env) :
  init_done_received (mem e) = false ->
  existsb is_boot_done evs = false ->
  probes (trace_of (run evs clock e)) = 0%nat.
Proof.
  revert e. induction evs as [|ev evs IH]; intros e Hpre Hnone.
  - reflexivity.
  - cbn [existsb] in Hnone. apply orb_false_elim in Hnone as [Hev Hrest].
    rewrite run_cons. unfold trace_of at 1. cbn [snd].
    rewrite probes_app, probes_handle, Hpre. cbn [andb].
    apply IH; [|exact Hrest].
    rewrite init_done_handle, Hpre, Hev. reflexivity.
Qed.

(** ** The boot gate *)

(** C1.  In every event sequence, from any state, a step that invokes the
    disk-usage scan started with [init_done_received] already set.  While
    the flag is clear and no boot-done signal arrives, no number of
    wake-ups, check requests or activity signals invokes the scan, neither
    from an arbitrary state nor over the module's lifetime from load.  Once
    the flag is set, [check_disk_space] and each handler that reaches it
    invoke the scan exactly once. *)
Theorem C1_probe_only_after_boot (clock : Clock) (evs : list Event) (e : Env) :
  (forall st : Step,
      In st (steps clock e evs) ->
      probes (calls st) <> 0%nat ->
      init_done_received (mem (pre st)) = true)
  /\ (init_done_received (mem e) = false ->
      existsb is_boot_done evs = false ->
      probes (trace_of (run evs clock e)) = 0%nat)
  /\ (existsb is_boot_done evs = false ->
      probes (trace_of (lifetime evs clock env_init)) = 0%nat)
  /\ (init_done_received (mem e) = true ->
      probes (trace_of (check_disk_space clock e)) = 1%nat
      /\ probes (trace_of (handle WAKEUP clock e)) = 1%nat
      /\ (forall request : DsmeDbusRequest,
             probes (trace_of (handle (REQ_CHECK request) clock e)) = 1%nat)
      /\ (forall ev : Event,
             attempts_probe clock e ev = true ->
             probes (trace_of (handle ev clock e)) = 1%nat)).
Proof.
  split; [|split; [|split]].
  - revert e. induction evs as [|ev evs IH]; intros e st Hin Hprobe.
    + destruct Hin.
    + cbn [steps] in Hin. destruct Hin as [<- | Hin].
      * cbn [calls pre] in *. rewrite probes_handle in Hprobe.
        destruct (init_done_received (mem e)); [reflexivity|].
        exfalso. apply Hprobe. reflexivity.
      * eapply IH; eassumption.
  - apply probes_run_before_boot.
  - intros Hnone. rewrite lifetime_eq. unfold trace_of at 1. cbn [snd].
    rewrite probes_app. rewrite probes_run_before_boot; auto.
  - intros Hboot. split; [|split; [|split]].
    + rewrite check_disk_space_eq, Hboot. reflexivity.
    + rewrite probes_handle, Hboot. reflexivity.
    + intros request. rewrite probes_handle, Hboot. reflexivity.
    + intros ev Hev. rewrite probes_handle, Hboot, Hev. reflexivity.
Qed.

Lemma C1_probe_only_after_boot_witness :
  probes (trace_of (run [WAKEUP; REQ_CHECK (mkRequest None);
                         SYSTEM_INACTIVITY_IND 0; WAKEUP]
                        clock_2011 env_init)) = 0%nat
  /\ probes (trace_of (lifetime [SYSTEM_INACTIVITY_IND 0; WAKEUP; WAKEUP]
                                clock_2011 env_init)) = 0%nat
  /\ probes (trace_of (handle (SYSTEM_INACTIVITY_IND 0)
                              clock_2011 env_booted)) = 1%nat
  /\ init_done_received
       (mem (pre {| pre := env_booted; event := WAKEUP
                  ; calls := trace_of (handle WAKEUP clock_2011 env_booted)
                  ; post := env_of (handle WAKEUP clock_2011 env_booted) |}))
     = true.
Proof.
  split; [|split; [|split]].
  - apply (C1_probe_only_after_boot clock_2011 _ env_init); reflexivity.
  - apply (C1_probe_only_after_boot clock_2011 _ env_init); reflexivity.
  - apply (C1_probe_only_after_boot clock_2011 [] env_booted);
      reflexivity.
  - apply (C1_probe_only_after_boot clock_2011 [WAKEUP] env_booted).
    + left. reflexivity.
    + cbn [calls]. vm_compute. discriminate.
Defined.

(** ** The activity signal *)

(** The subtraction [now - last_check_time] is stored in an [int]: past
    2038 the age of a check that never happened is negative. *)
Lemma seconds_from_last_check_wraps :
  now_at clock_2038 env_booted - last_check_time (mem env_booted)
    = 2147484548
  /\ seconds_from_last_check clock_2038 env_booted = -2147482748
  /\ probes (trace_of (mce_inactivity_sig 0 clock_2038 env_booted)) = 0%nat.
Proof. vm_compute. repeat split. Qed.

(** C2, as stated, fails.  Boot is completed, the device is idle, no check
    has happened yet ([last_check_time] is still zero) and the clock reads
    100.  The activity signal reports active.  The specification counts the
    missing check as stale and expects one check before the reschedule; the
    handler compares [100 - 0] with 900, does not reach [check_disk_space],
    and only logs and reschedules. *)
Lemma C2_never_checked_not_stale :
  init_done_received (mem env_booted) = true
  /\ device_active (mem env_booted) = false
  /\ last_check_time (mem env_booted) = 0
  /\ now_at clock_epoch env_booted = 100
  /\ spec_probe_attempts (0 =? 0) (now_at clock_epoch env_booted)
                         (last_check_time (mem env_booted)) = 1%nat
  /\ attempts_probe clock_epoch env_booted (SYSTEM_INACTIVITY_IND 0) = false
  /\ probes (trace_of (mce_inactivity_sig 0 clock_epoch env_booted)) = 0%nat
  /\ trace_of (mce_inactivity_sig 0 clock_epoch env_booted)
     = [log_inactivity_received; broadcast_internally (wait_for true)].
Proof. vm_compute. repeat split. Qed.

(** C2, amended.  When the signal reports a state different from
    [device_active], the handler stores the new state, leaves the other
    flags alone and sends exactly one wake-up request, built from the
    interval of the new state, as its last call.  Before that request it
    runs [check_disk_space] exactly once when the new state is active and
    [seconds_from_last_check >= 900], and not at all otherwise; whenever
    [now - last_check_time] fits an [int] this test is
    [now - last_check_time >= 900], where a check that never happened has
    [last_check_time = 0].  A change to idle never reaches
    [check_disk_space], whatever the clock reads. *)
Theorem C2_activity_change (clock : Clock) (e : Env) (inactive : Z) :
  (inactive =? 0) <> device_active (mem e) ->
  device_active (mem (env_of (mce_inactivity_sig inactive clock e)))
    = (inactive =? 0)
  /\ init_done_received (mem (env_of (mce_inactivity_sig inactive clock e)))
     = init_done_received (mem e)
  /\ waits (trace_of (mce_inactivity_sig inactive clock e))
     = [wait_for (inactive =? 0)]
  /\ trace_of (mce_inactivity_sig inactive clock e)
     = log_inactivity_received
         :: (if attempts_probe clock e (SYSTEM_INACTIVITY_IND inactive)
             then log_checking (seconds_from_last_check clock e)
                    :: trace_of (check_disk_space clock
                                   (after_change inactive e))
             else [])
         ++ [broadcast_internally (wait_for (inactive =? 0))]
  /\ probes (trace_of (mce_inactivity_sig inactive clock e))
     = (if init_done_received (mem e)
           && attempts_probe clock e (SYSTEM_INACTIVITY_IND inactive)
        then 1%nat else 0%nat)
  /\ (CInt.fits_int (now_at clock e - last_check_time (mem e)) ->
      (attempts_probe clock e (SYSTEM_INACTIVITY_IND inactive) = true
       <-> (inactive =? 0) = true
           /\ now_at clock e - last_check_time (mem e) >= 900))
  /\ ((inactive =? 0) = false ->
      attempts_probe clock e (SYSTEM_INACTIVITY_IND inactive) = false
      /\ probes (trace_of (mce_inactivity_sig inactive clock e)) = 0%nat).
Proof.
  intros Hchange.
  assert (Hneq : Bool.eqb (inactive =? 0) (device_active (mem e)) = false)
    by (apply eqb_false_iff; exact Hchange).
  pose proof (probes_handle clock e (SYSTEM_INACTIVITY_IND inactive)) as Hp.
  pose proof (waits_handle clock e (SYSTEM_INACTIVITY_IND inactive)) as Hw.
  pose proof (device_active_handle clock e (SYSTEM_INACTIVITY_IND inactive))
    as Hd.
  pose proof (init_done_handle clock e (SYSTEM_INACTIVITY_IND inactive))
    as Hi.
  cbn [handle is_boot_done] in Hp, Hw, Hd, Hi.
  rewrite Hneq in Hw. rewrite orb_false_r in Hi.
  split; [exact Hd|]. split; [exact Hi|]. split; [exact Hw|].
  split; [|split; [exact Hp|split]].
  - rewrite mce_inactivity_sig_eq. cbv zeta. rewrite Hneq.
    cbn [attempts_probe]. rewrite Hneq. cbn [negb andb].
    unfold after_change.
    destruct ((inactive =? 0) &&
              (MAXTIME_FROM_LAST_CHECK <=? seconds_from_last_check clock e));
      reflexivity.
  - intros Hfit. cbn [attempts_probe]. rewrite Hneq. cbn [negb andb].
    unfold seconds_from_last_check. fold (now_at clock e).
    rewrite (to_int_fits _ Hfit).
    rewrite andb_true_iff, Z.leb_le. unfold MAXTIME_FROM_LAST_CHECK. lia.
  - intros Hidle. rewrite Hp. cbn [attempts_probe].
    rewrite Hidle, andb_false_r. cbn [andb].
    rewrite andb_false_r. split; reflexivity.
Qed.

Lemma C2_activity_change_witness :
  device_active (mem (env_of (mce_inactivity_sig 0 clock_2011 env_booted)))
    = true
  /\ (attempts_probe clock_2011 env_booted (SYSTEM_INACTIVITY_IND 0) = true
      <-> (0 =? 0) = true
          /\ now_at clock_2011 env_booted
               - last_check_time (mem env_booted) >= 900).
Proof.
  destruct (C2_activity_change clock_2011 env_booted 0)
    as (Hd & _ & _ & _ & _ & Hiff & _).
  - cbn. discriminate.
  - split; [exact Hd|]. apply Hiff.
    unfold CInt.fits_int, CInt.INT_MIN, CInt.INT_MAX. vm_compute.
    split; discriminate.
Defined.

(** C3.  A signal that reports the state [device_active] already has
    changes no variable and makes no call but the debug log line: no
    wake-up request, no scan.  Hence, from any state, the second of two
    consecutive signals with the same meaning does nothing. *)
Theorem C3_same_activity_noop (clock : Clock) (e : Env) :
  (forall inactive : Z,
      (inactive =? 0) = device_active (mem e) ->
      mem (env_of (mce_inactivity_sig inactive clock e)) = mem e
      /\ trace_of (mce_inactivity_sig inactive clock e)
         = [log_inactivity_received]
      /\ waits (trace_of (mce_inactivity_sig inactive clock e)) = []
      /\ probes (trace_of (mce_inactivity_sig inactive clock e)) = 0%nat
      /\ attempts_probe clock e (SYSTEM_INACTIVITY_IND inactive) = false)
  /\ (forall first second : Z,
         (first =? 0) = (second =? 0) ->
         mem (env_of (run [SYSTEM_INACTIVITY_IND first;
                           SYSTEM_INACTIVITY_IND second] clock e))
           = mem (env_of (mce_inactivity_sig first clock e))
         /\ trace_of (mce_inactivity_sig second clock
                        (env_of (mce_inactivity_sig first clock e)))
            = [log_inactivity_received]
         /\ waits (trace_of (mce_inactivity_sig second clock
                               (env_of (mce_inactivity_sig first clock e))))
            = []
         /\ probes (trace_of (mce_inactivity_sig second clock
                                (env_of (mce_inactivity_sig first clock e))))
            = 0%nat).
Proof.
  assert (Hnoop : forall (e0 : Env) (inactive : Z),
             (inactive =? 0) = device_active (mem e0) ->
             mce_inactivity_sig inactive clock e0 =
               (tt, {| mem := mem e0; ticks := S (ticks e0) |},
                [log_inactivity_received])).
  { intros e0 inactive Hsame. rewrite mce_inactivity_sig_eq. cbv zeta.
    rewrite Hsame, eqb_reflx. reflexivity. }
  split.
  - intros inactive Hsame. rewrite (Hnoop e inactive Hsame).
    cbn [attempts_probe]. rewrite Hsame, eqb_reflx. repeat split.
  - intros first second Hsame.
    assert (Hnow : (second =? 0)
                   = device_active
                       (mem (env_of (mce_inactivity_sig first clock e)))).
    { rewrite <- Hsame.
      symmetry. apply (device_active_handle clock e
                         (SYSTEM_INACTIVITY_IND first)). }
    rewrite !run_cons. cbn [handle run].
    rewrite (Hnoop _ second Hnow). repeat split.
Qed.

Lemma C3_same_activity_noop_witness :
  trace_of (mce_inactivity_sig 1 clock_2011 env_booted)
    = [log_inactivity_received]
  /\ probes (trace_of (mce_inactivity_sig 0 clock_2011
                         (env_of (mce_inactivity_sig 0 clock_2011
                                    env_booted)))) = 0%nat.
Proof.
  split.
  - apply (C3_same_activity_noop clock_2011 env_booted). reflexivity.
  - apply (proj2 (C3_same_activity_noop clock_2011 env_booted) 0 0).
    reflexivity.
Defined.

(** ** The wake-up *)

(** C4.  The wake-up handler runs [check_disk_space] first and
    [schedule_next_wakeup] second, whatever the state: the scan is invoked
    and [last_check_time] set to the clock reading exactly when
    [init_done_received] is set, and exactly one wake-up request follows.
    With boot completed and the device idle the calls are one scan and the
    request [{1800, 1920}], and [last_check_time] is the reading taken at
    that wake-up. *)
Theorem C4_wakeup (clock : Clock) (e : Env) :
  trace_of (handle_WAKEUP clock e)
    = trace_of (check_disk_space clock e)
        ++ [broadcast_internally (wait_for (device_active (mem e)))]
  /\ trace_of (check_disk_space clock e)
     = (if init_done_received (mem e) then [check_disk_space_usage] else [])
  /\ probes (trace_of (handle_WAKEUP clock e))
     = (if init_done_received (mem e) then 1%nat else 0%nat)
  /\ waits (trace_of (handle_WAKEUP clock e))
     = [wait_for (device_active (mem e))]
  /\ mem (env_of (handle_WAKEUP clock e))
     = (if init_done_received (mem e)
        then set_last_check_time (now_at clock e) (mem e)
        else mem e)
  /\ (init_done_received (mem e) = true ->
      device_active (mem e) = false ->
      trace_of (handle_WAKEUP clock e)
        = [check_disk_space_usage;
           broadcast_internally
             {| req_mintime := 1800; req_maxtime := 1920
              ; req_pid := 0; data := 0 |}]
      /\ last_check_time (mem (env_of (handle_WAKEUP clock e)))
         = now_at clock e).
Proof.
  pose proof (probes_handle clock e WAKEUP) as Hp.
  pose proof (waits_handle clock e WAKEUP) as Hw.
  cbn [handle attempts_probe] in Hp, Hw. rewrite andb_true_r in Hp.
  rewrite handle_WAKEUP_eq in *. cbv zeta in *.
  rewrite check_disk_space_eq in *. unfold now_at.
  split; [reflexivity|]. split; [by_boot e|].
  split; [exact Hp|]. split; [exact Hw|]. split; [by_boot e|].
  intros Hboot Hidle. rewrite Hboot, Hidle. split; reflexivity.
Qed.

Lemma C4_wakeup_witness :
  trace_of (handle_WAKEUP clock_2011 env_booted)
    = [check_disk_space_usage;
       broadcast_internally
         {| req_mintime := 1800; req_maxtime := 1920
          ; req_pid := 0; data := 0 |}]
  /\ last_check_time (mem (env_of (handle_WAKEUP clock_2011 env_booted)))
     = now_at clock_2011 env_booted.
Proof.
  apply (C4_wakeup clock_2011 env_booted); reflexivity.
Defined.

(** ** Wake-up requests *)

Lemma wait_for_well_formed (active : bool) :
  well_formed_wait active (wait_for active) /\ known_wait (wait_for active).
Proof.
  unfold well_formed_wait, known_wait.
  destruct active; cbn; repeat split; auto.
Qed.

Lemma waits_handle_well_formed (clock : Clock) (e : Env) (ev : Event) :
  Forall (fun w =>
            well_formed_wait
              (device_active (mem (env_of (handle ev clock e)))) w
            /\ known_wait w)
         (waits (trace_of (handle ev clock e))).
Proof.
  rewrite waits_handle, device_active_handle.
  destruct ev; try constructor.
  - apply wait_for_well_formed.
  - constructor.
  - destruct (Bool.eqb (inactive =? 0) (device_active (mem e)));
      constructor; [apply wait_for_well_formed | constructor].
Qed.

(** C5.  Every wake-up request the module sends is the one
    [schedule_next_wakeup] builds from [device_active] as it stands at that
    moment: [maxtime = mintime + 120], and [mintime] is 300 when the device
    is active and 1800 when it is not.  In every step of every event
    sequence, and over the whole lifetime from load, the only requests are
    [{300, 420}] and [{1800, 1920}]. *)
Theorem C5_schedule_requests (clock : Clock) (evs : list Event) (e : Env) :
  waits (trace_of (schedule_next_wakeup clock e))
    = [wait_for (device_active (mem e))]
  /\ well_formed_wait (device_active (mem e))
                      (wait_for (device_active (mem e)))
  /\ Forall (fun st : Step =>
               Forall (fun w =>
                         well_formed_wait (device_active (mem (post st))) w
                         /\ known_wait w)
                      (waits (calls st)))
            (steps clock e evs)
  /\ Forall known_wait (waits (trace_of (run evs clock e)))
  /\ Forall (fun w => req_maxtime w = req_mintime w + 120 /\ known_wait w)
            (waits (trace_of (lifetime evs clock env_init))).
Proof.
  assert (Hsteps : forall e0 : Env,
             Forall (fun st : Step =>
                       Forall (fun w =>
                                 well_formed_wait
                                   (device_active (mem (post st))) w
                                 /\ known_wait w)
                              (waits (calls st)))
                    (steps clock e0 evs)).
  { intros e0.
    apply (steps_invariant clock (fun _ => True)); [|exact I].
    intros e1 ev _. split; [exact I|]. cbn [calls post].
    apply waits_handle_well_formed. }
  assert (Hrun : forall e0 : Env,
             Forall (fun w => req_maxtime w = req_mintime w + 120
                              /\ known_wait w)
                    (waits (trace_of (run evs clock e0)))).
  { intros e0. rewrite trace_of_run_steps.
    specialize (Hsteps e0).
    induction (steps clock e0 evs) as [|st sts IH].
    - constructor.
    - cbn [map List.concat]. rewrite waits_app.
      apply Forall_app. inversion Hsteps as [|? ? Hst Hsts]; subst.
      split; [|apply IH; exact Hsts].
      eapply Forall_impl; [|exact Hst].
      intros w [[Hmax _] Hknown]. split; assumption. }
  split; [rewrite schedule_next_wakeup_eq; reflexivity|].
  split; [apply wait_for_well_formed|].
  split; [apply Hsteps|].
  split.
  - eapply Forall_impl; [|apply (Hrun e)]. intros w [_ Hknown]. exact Hknown.
  - rewrite lifetime_eq. unfold trace_of at 1. cbn [snd app waits].
    constructor; [|apply Hrun].
    cbn. split; [reflexivity | right; reflexivity].
Qed.

(** ** The explicit check request *)

(** C6.  [req_check] logs the request, runs [check_disk_space] once, and
    then builds the reply: the reply comes back in every state, no wake-up
    request is sent, and the scan is invoked exactly when
    [init_done_received] is set.  Before boot completion the variables and
    the clock position are untouched, no scan is invoked and the reply is
    still returned. *)
Theorem C6_req_check (clock : Clock) (e : Env) (request : DsmeDbusRequest) :
  result_of (req_check request clock e) = dsme_dbus_reply_new request
  /\ trace_of (req_check request clock e)
     = [log_check_request request]
         ++ trace_of (check_disk_space clock e)
         ++ [dbus_reply_new request]
  /\ env_of (req_check request clock e) = env_of (check_disk_space clock e)
  /\ waits (trace_of (req_check request clock e)) = []
  /\ probes (trace_of (req_check request clock e))
     = (if init_done_received (mem e) then 1%nat else 0%nat)
  /\ (init_done_received (mem e) = false ->
      result_of (req_check request clock e) = ReplyTo request
      /\ probes (trace_of (req_check request clock e)) = 0%nat
      /\ env_of (req_check request clock e) = e
      /\ trace_of (req_check request clock e)
         = [log_check_request request; dbus_reply_new request]).
Proof.
  rewrite req_check_eq. cbv zeta. rewrite check_disk_space_eq.
  split; [reflexivity|]. split; [reflexivity|]. split; [reflexivity|].
  split; [by_boot e|]. split; [by_boot e|].
  intros Hboot. rewrite Hboot. repeat split.
Qed.

Lemma C6_req_check_witness :
  result_of (req_check (mkRequest None) clock_2011 env_init)
    = ReplyTo (mkRequest None)
  /\ probes (trace_of (req_check (mkRequest None) clock_2011 env_init))
     = 0%nat
  /\ env_of (req_check (mkRequest None) clock_2011 env_init) = env_init
  /\ trace_of (req_check (mkRequest None) clock_2011 env_init)
     = [log_check_request (mkRequest None); dbus_reply_new (mkRequest None)].
Proof.
  apply (C6_req_check clock_2011 env_init (mkRequest None)). reflexivity.
Defined.

(** ** The result relay *)

Lemma signals_run (clock : Clock) (evs : list Event) (e : Env) :
  signals (trace_of (run evs clock e))
    = map disk_space_change_ind (disk_space_events evs).
Proof.
  revert e. induction evs as [|ev evs IH]; intros e; [reflexivity|].
  rewrite run_cons. unfold trace_of at 1. cbn [snd].
  rewrite signals_app, signals_handle, IH.
  destruct ev; reflexivity.
Qed.

Lemma run_deliver (clock : Clock) (results : list (string * Z)) (e : Env) :
  run (map deliver results) clock e
    = (tt, e, map (fun r => dsme_dbus_signal_emit (disk_space_change_ind r))
                  results).
Proof.
  induction results as [|[mount_path used] results IH]; [reflexivity|].
  cbn [map].
  change (deliver (mount_path, used)) with (DISK_SPACE mount_path used).
  rewrite run_cons. cbn [handle].
  rewrite handle_DISK_SPACE_eq. unfold env_of, trace_of. cbn [fst snd].
  rewrite IH. reflexivity.
Qed.

(** C7.  In every event sequence the signals emitted are, in order, one
    [disk_space_change_ind] per [DISK_SPACE] message, and nothing else
    emits a signal.  Each signal goes out on the monitor's signal path and
    interface and carries the mount path and then the percentage, both as
    received; the handler changes no variable.  Two results for two mounts
    give exactly those two signals, in the order of arrival. *)
Theorem C7_result_relay (clock : Clock) (evs : list Event) (e : Env) :
  signals (trace_of (run evs clock e))
    = map disk_space_change_ind (disk_space_events evs)
  /\ List.length (signals (trace_of (run evs clock e)))
     = List.length (disk_space_events evs)
  /\ (forall results : list (string * Z),
         trace_of (run (map deliver results) clock e)
           = map (fun r => dsme_dbus_signal_emit (disk_space_change_ind r))
                 results
         /\ env_of (run (map deliver results) clock e) = e)
  /\ (forall (mount_path : string) (used : Z),
         handle_DISK_SPACE mount_path used clock e
         = (tt, e,
            [dsme_dbus_signal_emit
               {| msg_path := "/com/nokia/diskmonitor/signal"
                ; msg_interface := "com.nokia.diskmonitor.signal"
                ; msg_name := "disk_space_change_ind"
                ; msg_args := [ArgString mount_path; ArgInt used] |}]))
  /\ (forall (mount1 mount2 : string) (used1 used2 : Z),
         trace_of (run [DISK_SPACE mount1 used1; DISK_SPACE mount2 used2]
                       clock e)
         = [dsme_dbus_signal_emit
              {| msg_path := "/com/nokia/diskmonitor/signal"
               ; msg_interface := "com.nokia.diskmonitor.signal"
               ; msg_name := "disk_space_change_ind"
               ; msg_args := [ArgString mount1; ArgInt used1] |};
            dsme_dbus_signal_emit
              {| msg_path := "/com/nokia/diskmonitor/signal"
               ; msg_interface := "com.nokia.diskmonitor.signal"
               ; msg_name := "disk_space_change_ind"
               ; msg_args := [ArgString mount2; ArgInt used2] |}]).
Proof.
  split; [apply signals_run|].
  split; [rewrite signals_run; apply length_map|].
  split; [intros results; rewrite run_deliver; split; reflexivity|].
  split; [reflexivity|].
  intros mount1 mount2 used1 used2. rewrite !run_cons. reflexivity.
Qed.

(** ** Boot completion *)

(** C8.  [init_done_ind] sets [init_done_received] and nothing else: the
    other four variables and the clock position keep their values and the
    only call is the debug log line.  A second signal changes nothing
    more.  Once the flag is set it stays set after every step of every
    event sequence. *)
Theorem C8_boot_done (clock : Clock) (evs : list Event) (e : Env) :
  env_of (init_done_ind clock e)
    = {| mem := {| init_done_received := true
                 ; device_active      := device_active (mem e)
                 ; dbus_methods_bound := dbus_methods_bound (mem e)
                 ; dbus_signals_bound := dbus_signals_bound (mem e)
                 ; last_check_time    := last_check_time (mem e) |}
       ; ticks := ticks e |}
  /\ trace_of (init_done_ind clock e) = [log_boot_done]
  /\ probes (trace_of (init_done_ind clock e)) = 0%nat
  /\ waits (trace_of (init_done_ind clock e)) = []
  /\ env_of (init_done_ind clock (env_of (init_done_ind clock e)))
     = env_of (init_done_ind clock e)
  /\ (init_done_received (mem e) = true ->
      env_of (init_done_ind clock e) = e)
  /\ (init_done_received (mem e) = true ->
      Forall (fun st : Step => init_done_received (mem (post st)) = true)
             (steps clock e evs)
      /\ init_done_received (mem (env_of (run evs clock e))) = true).
Proof.
  split; [reflexivity|]. split; [reflexivity|]. split; [reflexivity|].
  split; [reflexivity|]. split; [reflexivity|]. split.
  - intros Hboot. rewrite init_done_ind_eq. unfold env_of. cbn [fst snd].
    destruct e as [[boot active mb sb last] k]. cbn in Hboot. subst boot.
    reflexivity.
  - intros Hboot.
    apply (steps_invariant clock
             (fun e0 => init_done_received (mem e0) = true)); [|exact Hboot].
    intros e0 ev He0. cbn [post].
    rewrite init_done_handle, He0. split; reflexivity.
Qed.

Lemma C8_boot_done_witness :
  Forall (fun st : Step => init_done_received (mem (post st)) = true)
         (steps clock_2011 env_booted
                [WAKEUP; SYSTEM_INACTIVITY_IND 0; DBUS_DISCONNECT false false;
                 REQ_CHECK (mkRequest None); SYSTEM_INACTIVITY_IND 1])
  /\ env_of (init_done_ind clock_2011 env_booted) = env_booted.
Proof.
  split.
  - apply (C8_boot_done clock_2011 _ env_booted). reflexivity.
  - apply (C8_boot_done clock_2011 [] env_booted). reflexivity.
Defined.

(** ** The time of the last check *)

Lemma probe_tick_bounds (clock : Clock) (e : Env) (ev : Event) :
  (ticks e <= probe_tick e ev <= ticks (env_of (handle ev clock e)))%nat.
Proof.
  rewrite ticks_handle. destruct ev; cbn [probe_tick]; lia.
Qed.

Lemma last_check_time_step (clock : Clock) (e : Env) (ev : Event) :
  non_decreasing clock ->
  not_ahead clock e ->
  not_ahead clock (env_of (handle ev clock e))
  /\ last_check_time (mem e)
     <= last_check_time (mem (env_of (handle ev clock e))).
Proof.
  unfold not_ahead, now_at. intros Hclock Hle.
  pose proof (probe_tick_bounds clock e ev) as [Hlo Hhi].
  pose proof (Hclock _ _ Hlo) as H1.
  rewrite last_check_time_handle, ticks_handle in *.
  destruct (init_done_received (mem e) && attempts_probe clock e ev).
  - pose proof (Hclock (probe_tick e ev) (probe_tick e ev + 1)%nat
                  ltac:(lia)) as H2.
    apply N2Z.inj_le in H1, H2.
    split; [exact H2 | eapply Z.le_trans; eassumption].
  - rewrite Nat.add_0_r in *. apply N2Z.inj_le in H1.
    split; [eapply Z.le_trans; eassumption | apply Z.le_refl].
Qed.

Lemma last_check_time_run (clock : Clock) (evs : list Event) (e : Env) :
  non_decreasing clock ->
  not_ahead clock e ->
  not_ahead clock (env_of (run evs clock e))
  /\ last_check_time (mem e)
     <= last_check_time (mem (env_of (run evs clock e))).
Proof.
  intros Hclock. revert e. induction evs as [|ev evs IH]; intros e He.
  - split; [exact He | apply Z.le_refl].
  - destruct (last_check_time_step clock e ev Hclock He) as [He' Hle].
    destruct (IH _ He') as [Hend Hle'].
    rewrite env_of_run_cons.
    split; [exact Hend | eapply Z.le_trans; eassumption].
Qed.

(** C9.  [last_check_time] is initialised to zero.  A step that invokes
    the scan invokes it once and stores the clock reading taken in that
    step right after the scan; a step that does not invoke the scan leaves
    [last_check_time] as it was.  Under a non-decreasing clock the stored
    time never decreases: not across any step of a sequence started where
    the stored time is not ahead of the clock, and not between any two
    points of the module's lifetime from load. *)
Theorem C9_last_check_time (clock : Clock) (evs : list Event) (e : Env) :
  last_check_time globals_init = 0
  /\ Forall (fun st : Step =>
               (probes (calls st) = 0%nat
                /\ last_check_time (mem (post st))
                   = last_check_time (mem (pre st)))
               \/ (probes (calls st) = 1%nat
                   /\ last_check_time (mem (post st))
                      = Z.of_N (clock (probe_tick (pre st) (event st)))
                   /\ (ticks (pre st) <= probe_tick (pre st) (event st)
                       < ticks (post st))%nat))
            (steps clock e evs)
  /\ (non_decreasing clock ->
      not_ahead clock e ->
      Forall (fun st : Step =>
                last_check_time (mem (pre st))
                <= last_check_time (mem (post st)))
             (steps clock e evs)
      /\ last_check_time (mem e)
         <= last_check_time (mem (env_of (run evs clock e))))
  /\ (non_decreasing clock ->
      forall later : list Event,
        0 <= last_check_time (mem (env_of (lifetime evs clock env_init)))
        /\ last_check_time (mem (env_of (lifetime evs clock env_init)))
           <= last_check_time
                (mem (env_of (lifetime (evs ++ later) clock env_init)))).
Proof.
  split; [reflexivity|]. split; [|split].
  - apply (steps_invariant clock (fun _ => True)); [|exact I].
    intros e0 ev _. split; [exact I|]. cbn [calls post pre event].
    pose proof (probe_tick_bounds clock e0 ev) as Hb.
    rewrite probes_handle, last_check_time_handle, ticks_handle in *.
    destruct (init_done_received (mem e0) && attempts_probe clock e0 ev).
    + right. repeat split; lia.
    + left. split; reflexivity.
  - intros Hclock He. split.
    + apply (steps_invariant clock (not_ahead clock)); [|exact He].
      intros e0 ev He0. cbn [pre post].
      apply last_check_time_step; assumption.
    + apply last_check_time_run; assumption.
  - intros Hclock later.
    assert (Hinit : not_ahead clock env_init).
    { unfold not_ahead, now_at. cbn. lia. }
    rewrite !env_of_lifetime, env_of_run_app.
    destruct (last_check_time_run clock evs env_init Hclock Hinit)
      as [Hmid Hle].
    split; [exact Hle|].
    apply last_check_time_run; assumption.
Qed.

Lemma clock_2011_non_decreasing : non_decreasing clock_2011.
Proof. unfold non_decreasing, clock_2011. intros i j Hij. lia. Defined.

Lemma C9_last_check_time_witness :
  last_check_time (mem env_booted)
    <= last_check_time
         (mem (env_of (run [WAKEUP; SYSTEM_INACTIVITY_IND 0; WAKEUP]
                           clock_2011 env_booted)))
  /\ last_check_time
       (mem (env_of (lifetime [BASE_BOOT_DONE; WAKEUP]
                              clock_2011 env_init)))
     <= last_check_time
          (mem (env_of (lifetime ([BASE_BOOT_DONE; WAKEUP] ++ [WAKEUP])
                                 clock_2011 env_init))).
Proof.
  split.
  - apply (C9_last_check_time clock_2011 _ env_booted).
    + exact clock_2011_non_decreasing.
    + unfold not_ahead. vm_compute. discriminate.
  - apply (C9_last_check_time clock_2011 [BASE_BOOT_DONE; WAKEUP] env_init).
    exact clock_2011_non_decreasing.
Defined.

(** ** Start-up *)

(** C10.  [module_init] logs and calls [schedule_next_wakeup] once.  From
    the initial variables that is the single request [{1800, 1920}]; no
    scan is invoked and no variable changes.  Over the lifetime these two
    calls precede every call made for an event. *)
Theorem C10_module_init (clock : Clock) (evs : list Event) :
  device_active globals_init = false
  /\ trace_of (module_init clock env_init)
     = [log_loaded;
        broadcast_internally
          {| req_mintime := 1800; req_maxtime := 1920
           ; req_pid := 0; data := 0 |}]
  /\ waits (trace_of (module_init clock env_init))
     = [{| req_mintime := 1800; req_maxtime := 1920
         ; req_pid := 0; data := 0 |}]
  /\ probes (trace_of (module_init clock env_init)) = 0%nat
  /\ env_of (module_init clock env_init) = env_init
  /\ trace_of (lifetime evs clock env_init)
     = trace_of (module_init clock env_init)
         ++ trace_of (run evs clock env_init).
Proof.
  rewrite lifetime_eq. repeat split.
Qed.


(** ** The activity state over a sequence *)

(** After any event sequence [device_active] is what the last activity
    signal of the sequence reported: zero means active, anything else
    inactive.  Without such a signal it keeps its value. *)
Theorem device_active_run (clock : Clock) (evs : list Event) (e : Env) :
  device_active (mem (env_of (run evs clock e)))
    = last_activity (device_active (mem e)) evs.
Proof.
  revert e. induction evs as [|ev evs IH]; intros e; [reflexivity|].
  rewrite env_of_run_cons, IH, device_active_handle.
  destruct ev; reflexivity.
Qed.

Lemma last_nonempty_default {A} (l : list A) (a d d' : A) :
  last (a :: l) d = last (a :: l) d'.
Proof.
  revert a. induction l as [|b l IH]; intros a; [reflexivity|].
  change (last (b :: l) d = last (b :: l) d'). apply IH.
Qed.

Lemma last_app_default {A} (l1 l2 : list A) (d : A) :
  last (l1 ++ l2) d = last l2 (last l1 d).
Proof.
  revert d. induction l1 as [|a l1 IH]; intros d; [reflexivity|].
  destruct l1 as [|b l1].
  - cbn [app]. destruct l2 as [|c l2]; [reflexivity|].
    change (last (c :: l2) d = last (c :: l2) a).
    apply last_nonempty_default.
  - change (last ((b :: l1) ++ l2) d = last l2 (last (b :: l1) d)).
    apply IH.
Qed.

Lemma last_cons_default {A} (a : A) (l : list A) (d : A) :
  last (a :: l) d = last l a.
Proof.
  change (a :: l) with ([a] ++ l). rewrite last_app_default. reflexivity.
Qed.

Lemma pending_wait_handle (clock : Clock) (e : Env) (ev : Event) :
  last (waits (trace_of (handle ev clock e)))
       (wait_for (device_active (mem e)))
    = wait_for (device_active (mem (env_of (handle ev clock e)))).
Proof.
  rewrite waits_handle, device_active_handle.
  destruct ev; try reflexivity.
  destruct (Bool.eqb (inactive =? 0) (device_active (mem e))) eqn:Hsame;
    [|reflexivity].
  apply eqb_prop in Hsame. rewrite Hsame. reflexivity.
Qed.

Lemma pending_wait_run (clock : Clock) (evs : list Event) (e : Env) :
  last (waits (trace_of (run evs clock e)))
       (wait_for (device_active (mem e)))
    = wait_for (device_active (mem (env_of (run evs clock e)))).
Proof.
  revert e. induction evs as [|ev evs IH]; intros e; [reflexivity|].
  rewrite env_of_run_cons, run_cons. unfold trace_of at 1. cbn [snd].
  rewrite waits_app, last_app_default, pending_wait_handle. apply IH.
Qed.

(** From module load on, whatever the variables hold at load, the wake-up
    request sent last is the one for the current value of [device_active]:
    the schedule in force never lags behind the activity state. *)
Theorem pending_wait_matches_activity (clock : Clock) (evs : list Event)
  (e : Env) (w : DSM_MSGTYPE_WAIT) :
  last (waits (trace_of (lifetime evs clock e))) w
    = wait_for (device_active (mem (env_of (lifetime evs clock e)))).
Proof.
  rewrite env_of_lifetime, lifetime_eq. unfold trace_of at 1, log_loaded.
  cbn [snd app waits]. rewrite last_cons_default. apply pending_wait_run.
Qed.

(** ** Events the scheduler does not see *)

Lemma attempts_probe_sched (clock : Clock) (e1 e2 : Env) (ev : Event) :
  sched e1 = sched e2 ->
  attempts_probe clock e1 ev = attempts_probe clock e2 ev.
Proof.
  unfold sched. intros Heq. injection Heq as Hboot Hactive Hlast Hticks.
  unfold attempts_probe, seconds_from_last_check.
  rewrite Hactive, Hlast, Hticks. reflexivity.
Qed.

Lemma handle_sched (clock : Clock) (e1 e2 : Env) (ev : Event) :
  sched e1 = sched e2 ->
  sched (env_of (handle ev clock e1)) = sched (env_of (handle ev clock e2))
  /\ probes (trace_of (handle ev clock e1))
     = probes (trace_of (handle ev clock e2))
  /\ waits (trace_of (handle ev clock e1))
     = waits (trace_of (handle ev clock e2)).
Proof.
  intros Heq. pose proof (attempts_probe_sched clock e1 e2 ev Heq) as Ha.
  unfold sched in *. injection Heq as Hboot Hactive Hlast Hticks.
  rewrite !init_done_handle, !device_active_handle, !last_check_time_handle,
    !ticks_handle, !probes_handle, !waits_handle.
  unfold probe_tick. rewrite Ha, Hboot, Hactive, Hlast, Hticks.
  repeat split.
Qed.

Lemma handle_transparent (clock : Clock) (e : Env) (ev : Event) :
  is_transparent ev = true ->
  sched (env_of (handle ev clock e)) = sched e
  /\ probes (trace_of (handle ev clock e)) = 0%nat
  /\ waits (trace_of (handle ev clock e)) = [].
Proof.
  destruct ev; cbn [is_transparent]; intros Ht; try discriminate Ht;
    repeat split.
Qed.

Lemma trace_of_run_cons (clock : Clock) (e : Env) (ev : Event)
  (evs : list Event) :
  trace_of (run (ev :: evs) clock e)
    = trace_of (handle ev clock e)
        ++ trace_of (run evs clock (env_of (handle ev clock e))).
Proof. rewrite run_cons. reflexivity. Qed.

Lemma run_skips_transparent (clock : Clock) (evs : list Event) :
  forall e1 e2 : Env,
    sched e1 = sched e2 ->
    sched (env_of (run (filter (fun ev => negb (is_transparent ev)) evs)
                       clock e1))
      = sched (env_of (run evs clock e2))
    /\ probes (trace_of (run (filter (fun ev => negb (is_transparent ev)) evs)
                             clock e1))
       = probes (trace_of (run evs clock e2))
    /\ waits (trace_of (run (filter (fun ev => negb (is_transparent ev)) evs)
                            clock e1))
       = waits (trace_of (run evs clock e2)).
Proof.
  induction evs as [|ev evs IH]; intros e1 e2 Heq.
  - cbn [filter run]. unfold ret, env_of, trace_of. cbn [fst snd].
    repeat split. exact Heq.
  - cbn [filter]. destruct (is_transparent ev) eqn:Ht; cbn [negb].
    + destruct (handle_transparent clock e2 ev Ht) as (Hs & Hp & Hw).
      rewrite (env_of_run_cons clock e2), (trace_of_run_cons clock e2).
      rewrite probes_app, waits_app, Hp, Hw. cbn [plus app].
      apply IH. rewrite Hs. exact Heq.
    + destruct (handle_sched clock e1 e2 ev Heq) as (Hs & Hp & Hw).
      rewrite !env_of_run_cons, !trace_of_run_cons.
      rewrite !probes_app, !waits_app, Hp, Hw.
      destruct (IH _ _ Hs) as (Hs' & Hp' & Hw').
      rewrite Hs', Hp', Hw'. repeat split.
Qed.

(** Probe results and bus connection messages are invisible to the
    scheduler: dropping every [DISK_SPACE], [DBUS_CONNECT] and
    [DBUS_DISCONNECT] message from a sequence changes neither the
    scheduling variables the sequence ends with nor the scans and wake-up
    requests made on the way. *)
Theorem scheduler_ignores_relay_and_bus (clock : Clock) (evs : list Event)
  (e : Env) :
  sched (env_of (run (filter (fun ev => negb (is_transparent ev)) evs)
                     clock e))
    = sched (env_of (run evs clock e))
  /\ probes (trace_of (run (filter (fun ev => negb (is_transparent ev)) evs)
                           clock e))
     = probes (trace_of (run evs clock e))
  /\ waits (trace_of (run (filter (fun ev => negb (is_transparent ev)) evs)
                          clock e))
     = waits (trace_of (run evs clock e)).
Proof. apply run_skips_transparent. reflexivity. Qed.

(** ** Freshness of the last check *)

(** With boot completed, once a signal has switched the device to active
    the stored check time is less than 900 seconds older than the reading
    the handler took on entry, provided the age fits an [int] and the
    clock did not step back between the handler's two readings. *)
Theorem check_fresh_after_activation (clock : Clock) (e : Env)
  (inactive : Z) :
  init_done_received (mem e) = true ->
  device_active (mem e) = false ->
  inactive = 0 ->
  CInt.fits_int (now_at clock e - last_check_time (mem e)) ->
  (clock (ticks e) <= clock (S (ticks e)))%N ->
  now_at clock e
    - last_check_time (mem (env_of (mce_inactivity_sig inactive clock e)))
    < 900.
Proof.
  intros Hboot Hidle Hzero Hfit Hclock. subst inactive.
  pose proof (last_check_time_handle clock e (SYSTEM_INACTIVITY_IND 0))
    as Hlast.
  cbn [handle attempts_probe probe_tick] in Hlast.
  rewrite Hlast, Hboot, Hidle. cbn [Z.eqb Bool.eqb negb andb].
  unfold seconds_from_last_check. fold (now_at clock e).
  rewrite (to_int_fits _ Hfit). unfold MAXTIME_FROM_LAST_CHECK.
  destruct (900 <=? now_at clock e - last_check_time (mem e)) eqn:Hstale.
  - unfold now_at. apply N2Z.inj_le in Hclock. lia.
  - apply Z.leb_gt in Hstale. exact Hstale.
Qed.

Lemma check_fresh_after_activation_witness :
  now_at clock_2011 env_booted
    - last_check_time
        (mem (env_of (mce_inactivity_sig 0 clock_2011 env_booted)))
    < 900.
Proof.
  apply (check_fresh_after_activation clock_2011 env_booted 0).
  - reflexivity.
  - reflexivity.
  - reflexivity.
  - unfold CInt.fits_int, CInt.INT_MIN, CInt.INT_MAX. vm_compute.
    split; discriminate.
  - vm_compute. discriminate.
Defined.

(** When the age [now - last_check_time] no longer fits an [int] and lies
    between [2^31] and [2^32 + 900], the value kept in
    [seconds_from_last_check] is below 900: a switch to active then makes
    no check, whatever the boot flag, and only reschedules. *)
Theorem activation_skips_check_on_wrapped_age (clock : Clock) (e : Env)
  (inactive : Z) :
  device_active (mem e) = false ->
  inactive = 0 ->
  2 ^ 31 <= now_at clock e - last_check_time (mem e) < 2 ^ 32 + 900 ->
  seconds_from_last_check clock e
    = now_at clock e - last_check_time (mem e) - 2 ^ 32
  /\ attempts_probe clock e (SYSTEM_INACTIVITY_IND inactive) = false
  /\ trace_of (mce_inactivity_sig inactive clock e)
     = [log_inactivity_received; broadcast_internally (wait_for true)]
  /\ last_check_time (mem (env_of (mce_inactivity_sig inactive clock e)))
     = last_check_time (mem e).
Proof.
  intros Hidle Hzero Hage. subst inactive.
  assert (Hsecs : seconds_from_last_check clock e
                  = now_at clock e - last_check_time (mem e) - 2 ^ 32).
  { unfold seconds_from_last_check, CInt.to_int. fold (now_at clock e).
    set (age := now_at clock e - last_check_time (mem e)) in *.
    replace (age + 2 ^ 31) with (age - 2 ^ 31 + 1 * 2 ^ 32) by lia.
    rewrite Z.mod_add by lia. rewrite Z.mod_small; lia. }
  assert (Hleb : (MAXTIME_FROM_LAST_CHECK <=? seconds_from_last_check clock e)
                 = false).
  { apply Z.leb_gt. rewrite Hsecs. unfold MAXTIME_FROM_LAST_CHECK. lia. }
  split; [exact Hsecs|]. split; [|split].
  - cbn [attempts_probe]. rewrite Hleb. apply andb_false_r.
  - rewrite mce_inactivity_sig_eq. cbv zeta.
    rewrite Hidle, Hleb. reflexivity.
  - pose proof (last_check_time_handle clock e (SYSTEM_INACTIVITY_IND 0))
      as Hlast.
    cbn [handle attempts_probe] in Hlast.
    rewrite Hlast, Hleb, !andb_false_r. reflexivity.
Qed.

Lemma activation_skips_check_on_wrapped_age_witness :
  seconds_from_last_check clock_2038 env_booted
    = now_at clock_2038 env_booted - last_check_time (mem env_booted) - 2 ^ 32
  /\ attempts_probe clock_2038 env_booted (SYSTEM_INACTIVITY_IND 0) = false
  /\ trace_of (mce_inactivity_sig 0 clock_2038 env_booted)
     = [log_inactivity_received; broadcast_internally (wait_for true)]
  /\ last_check_time (mem (env_of (mce_inactivity_sig 0 clock_2038 env_booted)))
     = last_check_time (mem env_booted).
Proof.
  apply (activation_skips_check_on_wrapped_age clock_2038 env_booted 0).
  - reflexivity.
  - reflexivity.
  - vm_compute. split; [discriminate | reflexivity].
Defined.

(** Only the zero-ness of the signal's integer matters: two signals whose
    payloads are both zero or both non-zero (negative values included)
    have the same effect on the variables and make the same calls. *)
Theorem inactivity_payload_zero_or_not (clock : Clock) (e : Env)
  (inactive inactive' : Z) :
  (inactive = 0 <-> inactive' = 0) ->
  mce_inactivity_sig inactive clock e = mce_inactivity_sig inactive' clock e.
Proof.
  intros Hsame.
  assert (Heq : (inactive =? 0) = (inactive' =? 0)).
  { destruct (Z.eqb_spec inactive 0) as [H0|H0];
      destruct (Z.eqb_spec inactive' 0) as [H0'|H0']; try reflexivity.
    - exfalso. apply H0'. apply Hsame. exact H0.
    - exfalso. apply H0. apply Hsame. exact H0'. }
  rewrite !mce_inactivity_sig_eq. cbv zeta. rewrite Heq. reflexivity.
Qed.

Lemma inactivity_payload_zero_or_not_witness :
  mce_inactivity_sig 1 clock_2011 env_booted
    = mce_inactivity_sig (-7) clock_2011 env_booted.
Proof.
  apply (inactivity_payload_zero_or_not clock_2011 env_booted 1 (-7)).
  split; intros H; discriminate H.
Defined.

(** ** Where the stored time comes from *)

(** Over the module's lifetime from load [last_check_time] is either still
    zero, or boot has completed and the stored value is one of the clock
    readings already taken. *)
Theorem last_check_time_is_a_reading (clock : Clock) (evs : list Event) :
  last_check_time (mem (env_of (lifetime evs clock env_init))) = 0
  \/ (init_done_received (mem (env_of (lifetime evs clock env_init))) = true
      /\ exists k : nat,
           (k < ticks (env_of (lifetime evs clock env_init)))%nat
           /\ last_check_time (mem (env_of (lifetime evs clock env_init)))
              = Z.of_N (clock k)).
Proof.
  rewrite env_of_lifetime.
  pose (Inv := fun e : Env =>
           last_check_time (mem e) = 0
           \/ (init_done_received (mem e) = true
               /\ exists k : nat,
                    (k < ticks e)%nat
                    /\ last_check_time (mem e) = Z.of_N (clock k))).
  assert (Hstep : forall (e : Env) (ev : Event),
             Inv e ->
             Inv (env_of (handle ev clock e))
             /\ (fun _ : Step => True)
                 {| pre := e; event := ev
                  ; calls := trace_of (handle ev clock e)
                  ; post := env_of (handle ev clock e) |}).
  { intros e ev He. split; [|exact I]. unfold Inv in *.
    pose proof (probe_tick_bounds clock e ev) as [Hlo Hhi].
    rewrite last_check_time_handle, ticks_handle, init_done_handle in *.
    destruct (init_done_received (mem e) && attempts_probe clock e ev)
      eqn:Hprobe.
    - right. apply andb_true_iff in Hprobe as [Hboot _]. rewrite Hboot.
      split; [reflexivity|].
      exists (probe_tick e ev). split; [lia|reflexivity].
    - destruct He as [Hzero | (Hboot & k & Hk & Hlast)]; [left; exact Hzero|].
      right. rewrite Hboot. split; [reflexivity|].
      exists k. split; [lia | exact Hlast]. }
  assert (Hinit : Inv env_init) by (left; reflexivity).
  exact (proj2 (steps_invariant clock Inv (fun _ => True) Hstep evs
                  env_init Hinit)).
Qed.

(** ** How many scans and wake-up requests *)

Lemma filter_length_cons {A} (f : A -> bool) (a : A) (l : list A) :
  List.length (filter f (a :: l))
    = ((if f a then 1 else 0) + List.length (filter f l))%nat.
Proof. cbn [filter]. destruct (f a); reflexivity. Qed.

Lemma probes_handle_le (clock : Clock) (e : Env) (ev : Event) :
  (probes (trace_of (handle ev clock e))
   <= if is_trigger ev then 1 else 0)%nat.
Proof.
  rewrite probes_handle.
  destruct ev; cbn [attempts_probe is_trigger]; rewrite ?andb_false_r;
    try apply Nat.le_refl;
    match goal with
    | |- context [if ?b then _ else _] => destruct b; auto
    end.
Qed.

Lemma waits_handle_length (clock : Clock) (e : Env) (ev : Event) :
  ((if is_wakeup ev then 1 else 0)
   <= List.length (waits (trace_of (handle ev clock e)))
   <= if reschedules ev then 1 else 0)%nat.
Proof.
  rewrite waits_handle.
  destruct ev; cbn [is_wakeup reschedules List.length]; try lia.
  destruct (Bool.eqb (inactive =? 0) (device_active (mem e)));
    cbn [List.length]; lia.
Qed.

(** An event sequence invokes the scan at most once per wake-up, check
    request or activity signal and never for another event.  It sends at
    least one wake-up request per wake-up consumed and at most one per
    wake-up or activity signal; check requests, the boot signal, probe
    results and bus connection messages never reschedule. *)
Theorem scans_and_requests_bounded (clock : Clock) (evs : list Event)
  (e : Env) :
  (probes (trace_of (run evs clock e))
   <= List.length (filter is_trigger evs))%nat
  /\ (List.length (filter is_wakeup evs)
      <= List.length (waits (trace_of (run evs clock e))))%nat
  /\ (List.length (waits (trace_of (run evs clock e)))
      <= List.length (filter reschedules evs))%nat.
Proof.
  revert e. induction evs as [|ev evs IH]; intros e.
  - cbn. repeat split; apply Nat.le_refl.
  - rewrite trace_of_run_cons, probes_app, waits_app, length_app.
    rewrite !filter_length_cons.
    pose proof (probes_handle_le clock e ev) as Hp.
    pose proof (waits_handle_length clock e ev) as [Hw1 Hw2].
    destruct (IH (env_of (handle ev clock e))) as (IHp & IHw1 & IHw2).
    repeat split; lia.
Qed.

(** Once boot has completed every wake-up and every check request invokes
    the scan: a sequence invokes it at least as often as it contains such
    events. *)
Theorem every_wakeup_and_request_scans (clock : Clock) (evs : list Event)
  (e : Env) :
  init_done_received (mem e) = true ->
  (List.length (filter always_checks evs)
   <= probes (trace_of (run evs clock e)))%nat.
Proof.
  revert e. induction evs as [|ev evs IH]; intros e Hboot.
  - apply Nat.le_refl.
  - rewrite trace_of_run_cons, probes_app, filter_length_cons.
    assert (Hnext : init_done_received (mem (env_of (handle ev clock e)))
                    = true)
      by (rewrite init_done_handle, Hboot; reflexivity).
    specialize (IH _ Hnext).
    assert (Hstep : ((if always_checks ev then 1 else 0)
                     <= probes (trace_of (handle ev clock e)))%nat).
    { rewrite probes_handle, Hboot.
      destruct ev; cbn [always_checks attempts_probe andb]; lia. }
    lia.
Qed.

Lemma every_wakeup_and_request_scans_witness :
  (List.length (filter always_checks
                  [WAKEUP; SYSTEM_INACTIVITY_IND 1; REQ_CHECK (mkRequest None)])
   <= probes (trace_of (run [WAKEUP; SYSTEM_INACTIVITY_IND 1;
                             REQ_CHECK (mkRequest None)]
                            clock_2011 env_booted)))%nat.
Proof.
  apply (every_wakeup_and_request_scans clock_2011 _ env_booted).
  reflexivity.
Defined.

(** ** No second scan right after a scan *)

(** With boot completed, after an event that ran the scan, an activity
    signal that arrives while the clock has advanced by less than 900
    seconds since the reading stored by that scan invokes no further
    scan, whatever it reports. *)
Theorem no_scan_right_after_scan (clock : Clock) (e : Env) (ev : Event)
  (inactive : Z) :
  init_done_received (mem e) = true ->
  attempts_probe clock e ev = true ->
  0 <= Z.of_N (clock (S (probe_tick e ev)))
       - Z.of_N (clock (probe_tick e ev)) < 900 ->
  probes (trace_of (handle ev clock e)) = 1%nat
  /\ probes (trace_of (handle (SYSTEM_INACTIVITY_IND inactive) clock
                              (env_of (handle ev clock e)))) = 0%nat.
Proof.
  intros Hboot Hattempt Hrecent.
  split; [rewrite probes_handle, Hboot, Hattempt; reflexivity|].
  rewrite probes_handle. cbn [attempts_probe].
  unfold seconds_from_last_check.
  rewrite last_check_time_handle, ticks_handle, Hboot, Hattempt.
  cbn [andb]. rewrite Nat.add_1_r.
  rewrite to_int_fits.
  - assert (Hleb : (MAXTIME_FROM_LAST_CHECK
                    <=? Z.of_N (clock (S (probe_tick e ev)))
                        - Z.of_N (clock (probe_tick e ev))) = false)
      by (apply Z.leb_gt; unfold MAXTIME_FROM_LAST_CHECK; lia).
    rewrite Hleb, !andb_false_r. reflexivity.
  - unfold CInt.fits_int, CInt.INT_MIN, CInt.INT_MAX. lia.
Qed.

Lemma no_scan_right_after_scan_witness :
  probes (trace_of (handle WAKEUP clock_2011 env_booted)) = 1%nat
  /\ probes (trace_of (handle (SYSTEM_INACTIVITY_IND 0) clock_2011
                              (env_of (handle WAKEUP clock_2011 env_booted))))
     = 0%nat.
Proof.
  apply (no_scan_right_after_scan clock_2011 env_booted WAKEUP 0).
  - reflexivity.
  - reflexivity.
  - vm_compute. split; [discriminate | reflexivity].
Defined.
